(** * unisign: the C example carrying a signature note (example/hello.c)

    The translation unit declares one constant character array,
    [magic_comment], placed in a note section whose name the preprocessor
    picks from the target, and a [main] that prints a greeting and
    returns 0.

    The development has three layers:
    - [CString]: what a C string literal denotes (escape sequences, the
      terminating NUL) and how a NUL-terminated array is read back;
    - [Stdio]: the part of <stdio.h> the program calls, [printf] on a
      stream that may refuse bytes;
    - [Hello]: the translation unit itself, its preprocessor conditional,
      the object it places by attribute and [main], both as a monadic
      function and as a small-step machine over program points; and the
      process around [main], whose buffered output is flushed at exit to
      a device that may answer with an error or with a fatal signal. *)

From Stdlib Require Import ZArith List String Ascii Bool Lia.
From Stdlib Require Import Strings.Byte.
Import ListNotations.

Local Open Scope string_scope.
Local Open Scope list_scope.

(* ===================================================================== *)
(** ** C string literals *)
(* ===================================================================== *)

Module CString.

(** The character a simple escape sequence [\c] stands for (C11 6.4.4.4).
    A character that starts no simple escape is kept as it is. *)
Definition escape (c : ascii) : ascii :=
  match c with
  | "n"%char => "010"%char
  | "t"%char => "009"%char
  | "r"%char => "013"%char
  | "0"%char => "000"%char
  | "a"%char => "007"%char
  | "b"%char => "008"%char
  | "f"%char => "012"%char
  | "v"%char => "011"%char
  | _ => c
  end.

(** Translation phase 5: escape sequences of a literal's spelling are
    replaced by the characters they denote. *)
Fixpoint unescape (s : string) : string :=
  match s with
  | EmptyString => EmptyString
  | String c rest =>
      if Ascii.eqb c "\"%char then
        match rest with
        | String e rest' => String (escape e) (unescape rest')
        | EmptyString => String c EmptyString
        end
      else String c (unescape rest)
  end.

(** The array of [char] a string literal denotes: its characters after
    escape processing, followed by a terminating zero byte
    (C11 6.4.5p6).  [const char a[] = "..."] gives [a] exactly these
    elements and this size (C11 6.7.9p14, p22). *)
Definition string_literal (spelling : string) : list byte :=
  list_byte_of_string (unescape spelling) ++ [x00].

(** The string held by a character array: the bytes before the first
    zero byte. *)
Fixpoint c_str (a : list byte) : list byte :=
  match a with
  | [] => []
  | b :: rest => if Byte.eqb b x00 then [] else b :: c_str rest
  end.

(** [sizeof a] for an array of [char]. *)
Definition sizeof (a : list byte) : nat := List.length a.

(** [strlen a]. *)
Definition strlen (a : list byte) : nat := List.length (c_str a).

End CString.

(* ===================================================================== *)
(** ** The process state and the C library *)
(* ===================================================================== *)

(** An output stream as the program sees it.  [sent] are the bytes the
  device has taken so far.  [room] is how many more bytes it will take
  before a write error ([None]: no limit); a closed descriptor or a full
  disk is [Some 0].  [error] is the stream's error indicator. *)
Record Stream : Type := mkStream {
sent : list byte;
room : option nat;
error : bool
}.

(** Everything a run of the program could observe or change: its standard
  streams, the storage of its one global object, the file system and
  the environment variables. *)
Record World : Type := mkWorld {
stdout : Stream;
stdin : list byte;
g_magic_comment : list byte;
files : list (string * list byte);
environ : list (string * string)
}.

Definition set_stdout (s : Stream) (w : World) : World :=
{| stdout := s;
   stdin := stdin w;
   g_magic_comment := g_magic_comment w;
   files := files w;
   environ := environ w |}.

(** Computations of the program: a function of the world that either has
  undefined behaviour ([None]) or returns a value and the next world. *)
Definition M (A : Type) : Type := World -> option (A * World).

Definition ret {A : Type} (a : A) : M A := fun w => Some (a, w).

Definition bind {A B : Type} (m : M A) (k : A -> M B) : M B :=
fun w =>
  match m w with
  | Some (a, w') => k a w'
  | None => None
  end.

Declare Scope c_scope.
Delimit Scope c_scope with C.
Notation "x <- m ;; k" := (bind m (fun x => k))
(at level 61, m at next level, right associativity) : c_scope.
Notation "m ;; k" := (bind m (fun _ => k))
(at level 61, right associativity) : c_scope.

Module Stdio.

(** [true] when a device with [r] bytes of room takes [n] more bytes. *)
Definition has_room (n : nat) (r : option nat) : bool :=
  match r with
  | None => true
  | Some k => (n <=? k)%nat
  end.

(** Writing [bs] through to what lies behind a stream: a device, or
    memory when [room] is [None].  When it takes them all, the result is
    their count.  Otherwise it takes the bytes it has room for, the error
    indicator is set and the result is negative (C11 7.21.6.1p14,
    7.21.7.3p3).  This is the write as the caller sees it when the call
    returns; a device that answers a refused byte by a signal that ends
    the process is dealt with where the process is, in
    [Hello.exit_process]. *)
Definition stream_put (bs : list byte) (s : Stream) : Z * Stream :=
  match room s with
  | None =>
      (Z.of_nat (List.length bs),
       {| sent := sent s ++ bs; room := None; error := error s |})
  | Some k =>
      if (List.length bs <=? k)%nat then
        (Z.of_nat (List.length bs),
         {| sent := sent s ++ bs;
            room := Some (k - List.length bs)%nat;
            error := error s |})
      else
        ((-1)%Z,
         {| sent := sent s ++ firstn k bs; room := Some 0%nat; error := true |})
  end.

(** The output of a format that is given no arguments: ordinary
    characters are copied, [%%] writes one [%], and any other conversion
    specification would read an argument the call does not pass, which
    is undefined (C11 7.21.6.1p2). *)
Fixpoint format_output (fmt : list byte) : option (list byte) :=
  match fmt with
  | [] => Some []
  | b :: rest =>
      if Byte.eqb b "%"%byte then
        match rest with
        | b' :: rest' =>
            if Byte.eqb b' "%"%byte
            then option_map (cons b') (format_output rest')
            else None
        | [] => None
        end
      else option_map (cons b) (format_output rest)
  end.

(** [printf(format)] with no further argument: the string that [format]
    points to is expanded and written to [stdout]; the result is the
    number of characters transmitted, or a negative value on an output
    error (C11 7.21.6.3). *)
Definition printf (format : list byte) : M Z :=
  fun w =>
    match format_output (CString.c_str format) with
    | None => None
    | Some bs =>
        let (n, s') := stream_put bs (stdout w) in
        Some (n, set_stdout s' w)
    end.

End Stdio.

(* ===================================================================== *)
(** ** The translation unit hello.c *)
(* ===================================================================== *)

Module Hello.

Import CString.
Local Open Scope c_scope.

(** *** Compile time: the preprocessor and the emitted object *)

(** A compilation target, as the preprocessor sees it: the names of the
    macros the compiler predefines for it. *)
Definition Target : Type := list string.

(** [defined(name)] in an [#if] expression. *)
Definition defined (name : string) (t : Target) : bool :=
  existsb (String.eqb name) t.

(** The controlling expression of the [#if]:
    [defined(__APPLE__) && defined(__MACH__)]. *)
Definition apple_macho (t : Target) : bool :=
  defined "__APPLE__" t && defined "__MACH__" t.

Inductive attribute : Type :=
| section (name : string).

(** The lines the conditional group [#if ... #else ... #endif] leaves in
    front of the declaration of [magic_comment]. *)
Definition magic_comment_attributes (t : Target) : list attribute :=
  if apple_macho t
  then [section "__NOTE,__unisign"]
  else [section ".note.unisign"].

(** [const char magic_comment[] = "us1-...";] *)
Definition magic_comment : list byte :=
  string_literal
    "us1-r/GZBm1d749E+KbBLWaEnR5fNz626Deutp0P9F4ICt5EOqGw+DeMQUNHb5TLBt+gol0p82zcb9sMDO+Ai7e2TA==".

(** An object with static storage duration, as the compiler emits it. *)
Record Object : Type := mkObject {
  o_name : string;
  o_attributes : list attribute;
  o_const : bool;
  o_bytes : list byte
}.

(** The objects the translation unit places by a section attribute, for
    target [t].  The code of [main] and the format literal go where the
    compiler chooses and are not listed. *)
Definition objects (t : Target) : list Object :=
  [ {| o_name := "magic_comment";
       o_attributes := magic_comment_attributes t;
       o_const := true;
       o_bytes := magic_comment |} ].

(** Where a section attribute puts an object.  Mach-O names a section by
    its segment and its section, written [segment,section] in the
    attribute; ELF names it by one string. *)
Inductive location : Type :=
| MachO (segment sect : string)
| ELF (name : string).

(** The part of [s] before the first comma, and the part after it. *)
Fixpoint split_comma (s : string) : option (string * string) :=
  match s with
  | EmptyString => None
  | String c rest =>
      if Ascii.eqb c ","%char then Some (EmptyString, rest)
      else
        match split_comma rest with
        | Some (a, b) => Some (String c a, b)
        | None => None
        end
  end.

Definition locate (t : Target) (a : attribute) : option location :=
  match a with
  | section name =>
      if apple_macho t then
        match split_comma name with
        | Some (seg, sect) => Some (MachO seg sect)
        | None => None
        end
      else Some (ELF name)
  end.

Definition location_eqb (l1 l2 : location) : bool :=
  match l1, l2 with
  | MachO g1 s1, MachO g2 s2 => String.eqb g1 g2 && String.eqb s1 s2
  | ELF n1, ELF n2 => String.eqb n1 n2
  | _, _ => false
  end.

(** [true] when one of the object's attributes puts it at [l]. *)
Definition placed_at (t : Target) (l : location) (o : Object) : bool :=
  existsb
    (fun a =>
       match locate t a with
       | Some l' => location_eqb l l'
       | None => false
       end)
    (o_attributes o).

(** What this translation unit puts by attribute into section [l] of
    the object file compiled for [t]: the bytes of the objects placed
    there, in declaration order. *)
Definition section_content (t : Target) (l : location) : list byte :=
  List.concat (map o_bytes (filter (placed_at t l) (objects t))).

(** The sections of the object file compiled for [t] that hold an object
    of this translation unit placed by an attribute. *)
Definition note_sections (t : Target) : list location :=
  flat_map
    (fun o =>
       flat_map
         (fun a => match locate t a with Some l => [l] | None => [] end)
         (o_attributes o))
    (objects t).

(** *** Run time *)

(** The world a process of this program starts in: nothing sent to
    standard output yet, and the image's bytes loaded for
    [magic_comment]. *)
Definition boot (out_room : option nat) (input : list byte)
    (fs : list (string * list byte)) (env : list (string * string)) : World :=
  {| stdout := {| sent := []; room := out_room; error := false |};
     stdin := input;
     g_magic_comment := magic_comment;
     files := fs;
     environ := env |}.

Section Program.

(** The [printf] the program is linked with. *)
Variable printf : list byte -> M Z.

(** [int main() { printf("Hello, world!\n"); return 0; }] *)
Definition main : M Z :=
  printf (string_literal "Hello, world!\n") ;;
  ret 0%Z.

(** The same function, statement by statement. *)
Inductive point : Type :=
| at_printf
| at_return.

Inductive config : Type :=
| Running (pc : point) (w : World)
| Exited (status : Z) (w : World)
| Undefined.

Definition step (c : config) : config :=
  match c with
  | Running at_printf w =>
      match printf (string_literal "Hello, world!\n") w with
      | Some (_, w') => Running at_return w'
      | None => Undefined
      end
  | Running at_return w => Exited 0%Z w
  | Exited status w => Exited status w
  | Undefined => Undefined
  end.

(** At most [fuel] statements are executed; [None] when the program has
    not exited by then. *)
Fixpoint exec (fuel : nat) (c : config) : option (Z * World) :=
  match c with
  | Exited status w => Some (status, w)
  | Undefined => None
  | Running _ _ =>
      match fuel with
      | O => None
      | S fuel' => exec fuel' (step c)
      end
  end.

(** Statements still to execute from a program point. *)
Definition remaining (c : config) : nat :=
  match c with
  | Running at_printf _ => 2
  | Running at_return _ => 1
  | Exited _ _ => 0
  | Undefined => 0
  end.

End Program.

(** What a run of [main] that returns shows: the status it returns,
    which [exit] makes the exit status, and the bytes on standard
    output. *)
Record Outcome : Type := mkOutcome {
  exit_status : Z;
  output : list byte
}.

(** Running [main], linked with the C library, from world [w], with the
    bytes written through at the call and a refused byte answered by an
    error.  Buffering and fatal signals are in [execute] below. *)
Definition run (w : World) : option Outcome :=
  match main Stdio.printf w with
  | Some (status, w') =>
      Some {| exit_status := status; output := sent (stdout w') |}
  | None => None
  end.

(** *** The process *)

(** The signals by which the system ends a process that writes: to a
    pipe nobody reads, and past the file size limit. *)
Inductive signal : Type :=
| SIGPIPE
| SIGXFSZ.

(** What the system does at a byte the device behind standard output has
    no room for: the write fails with an error (a closed descriptor, a
    full disk, a broken pipe with [SIGPIPE] ignored), or it raises a
    signal whose default action ends the process. *)
Inductive refusal : Type :=
| fails
| raises (s : signal).

(** How a process ends: by [exit], with a status, or killed by a
    signal, with none. *)
Inductive termination : Type :=
| exited (status : Z)
| killed (s : signal).

(** What a process leaves behind: how it ended and the bytes the device
    behind standard output holds. *)
Record Result : Type := mkResult {
  ending : termination;
  delivered : list byte
}.

(** The memory a buffered stream keeps its bytes in until it is flushed:
    it holds nothing yet and refuses nothing.  ([BUFSIZ] is at least 256,
    C11 7.21.1p3; the program prints 14.) *)
Definition buffer : Stream :=
  {| sent := []; room := None; error := false |}.

(** [exit(status)] with [pending] bytes in the buffer of standard output:
    the buffer is flushed to the device; a refused byte ends the process
    by the signal the device raises, if it raises one; otherwise the
    process exits with [status], whether the flush succeeded or not. *)
Definition exit_process (r : refusal) (status : Z) (pending : list byte)
    (device : Stream) : Result :=
  let (n, device') := Stdio.stream_put pending device in
  {| ending :=
       if (n <? 0)%Z then
         match r with
         | fails => exited status
         | raises s => killed s
         end
       else exited status;
     delivered := sent device' |}.

(** A process of the program, started in world [w] whose standard output
    is the device, refusing bytes in the way [r].  Standard output is
    fully buffered, as it is whenever it is not a terminal (C11
    7.21.3p7): [printf] stores the bytes and returns, [main] returns, and
    the start-up code passes the value to [exit], which flushes.  (On a
    line-buffered or unbuffered stream the same write is made inside the
    call, and a fatal signal then comes before [main] returns; the ending
    and the bytes delivered are the same.) *)
Definition execute (r : refusal) (w : World) : option Result :=
  match main Stdio.printf (set_stdout buffer w) with
  | Some (status, w') =>
      Some (exit_process r status (sent (stdout w')) (stdout w))
  | None => None
  end.

(** *** The specification's words *)

(** The signature as the specification quotes it. *)
Definition spec_signature : string :=
  "us1-r/GZBm1d749E+KbBLWaEnR5fNz626Deutp0P9F4ICt5EOqGw+DeMQUNHb5TLBt+gol0p82zcb9sMDO+Ai7e2TA==".

(** The text [Hello, world!] followed by one newline. *)
Definition greeting : list byte :=
  list_byte_of_string "Hello, world!" ++ [x0a].

(** The bytes of [bs] a device with room [r] takes. *)
Definition taken (r : option nat) (bs : list byte) : list byte :=
  match r with
  | None => bs
  | Some k => firstn k bs
  end.

(** Two targets to run the statements on. *)
Definition macos : Target := ["__APPLE__"; "__MACH__"; "__aarch64__"].
Definition linux : Target := ["__linux__"; "__ELF__"; "__x86_64__"].

(* ===================================================================== *)
(** ** Lemmas on the library model *)
(* ===================================================================== *)

Lemma stream_put_sent (bs : list byte) (s : Stream) :
  sent (snd (Stdio.stream_put bs s)) = sent s ++ taken (room s) bs.
Proof.
  unfold Stdio.stream_put, taken.
  destruct (room s) as [k|]; [|reflexivity].
  destruct (Nat.leb_spec (List.length bs) k) as [Hle|Hgt]; cbn.
  - now rewrite firstn_all2.
  - reflexivity.
Qed.

Lemma taken_all (bs : list byte) (r : option nat) :
  Stdio.has_room (List.length bs) r = true -> taken r bs = bs.
Proof.
  destruct r as [k|]; cbn; [|reflexivity].
  intros H. apply Nat.leb_le in H. now apply firstn_all2.
Qed.

(** The format of the call in [main] holds no conversion specification:
    it is written as it is, without the terminating zero byte. *)
Lemma hello_format_output :
  Stdio.format_output (c_str (string_literal "Hello, world!\n")) = Some greeting.
Proof. reflexivity. Qed.

(* ===================================================================== *)
(** ** Lemmas on the program *)
(* ===================================================================== *)

(** [main] in closed form: the greeting is put on standard output, the
    result of [printf] is dropped and 0 is returned. *)
Lemma main_eq (w : World) :
  main Stdio.printf w =
  Some (0%Z, set_stdout (snd (Stdio.stream_put greeting (stdout w))) w).
Proof.
  unfold main, bind, Stdio.printf.
  rewrite hello_format_output.
  destruct (Stdio.stream_put greeting (stdout w)) as [n s']; reflexivity.
Qed.

Lemma run_eq (w : World) :
  run w =
  Some {| exit_status := 0;
          output := sent (stdout w) ++ taken (room (stdout w)) greeting |}.
Proof.
  unfold run. rewrite main_eq. cbn. now rewrite stream_put_sent.
Qed.

(** The outcome of a run is a function of the standard output stream
    alone. *)
Lemma run_depends_on_stdout_only (w1 w2 : World) :
  stdout w1 = stdout w2 -> run w1 = run w2.
Proof. intros H. now rewrite !run_eq, H. Qed.

(** A process in closed form.  The device ends up with the bytes it had
    and those of the greeting it takes; the process exits with status 0
    unless a byte is refused and the refusal raises a signal. *)
Lemma execute_eq (r : refusal) (w : World) :
  execute r w =
  Some {| ending :=
            if Stdio.has_room (List.length greeting) (room (stdout w))
            then exited 0%Z
            else match r with
                 | fails => exited 0%Z
                 | raises s => killed s
                 end;
          delivered := sent (stdout w) ++ taken (room (stdout w)) greeting |}.
Proof.
  unfold execute. rewrite main_eq.
  change (sent (stdout (set_stdout
            (snd (Stdio.stream_put greeting (stdout (set_stdout buffer w))))
            (set_stdout buffer w))))
    with greeting.
  unfold exit_process, Stdio.stream_put, Stdio.has_room, taken.
  destruct (room (stdout w)) as [k|]; [|reflexivity].
  destruct (Nat.leb_spec (List.length greeting) k) as [Hle|Hgt].
  - cbn [sent]. now rewrite firstn_all2.
  - reflexivity.
Qed.

(** Where a refused byte is answered by an error, buffering makes no
    difference to what is seen from outside: the process flushed at exit
    ends with the status, and delivers the bytes, of the run that writes
    at the call. *)
Lemma execute_fails_agrees_with_run (w : World) :
  option_map (fun res => (ending res, delivered res)) (execute fails w)
  = option_map (fun o => (exited (exit_status o), output o)) (run w).
Proof.
  rewrite execute_eq, run_eq. cbn [option_map ending delivered exit_status output].
  destruct (Stdio.has_room (List.length greeting) (room (stdout w)));
    reflexivity.
Qed.

(** With any [printf] at all, the status [main] returns is 0, and [main]
    is undefined only where the call is. *)
Lemma main_status_any_printf (printf : list byte -> M Z) (w : World) :
  match main printf w with
  | Some (status, _) => status = 0%Z
  | None => printf (string_literal "Hello, world!\n") w = None
  end.
Proof.
  unfold main, bind.
  destruct (printf (string_literal "Hello, world!\n") w) as [[n w']|];
    reflexivity.
Qed.

(** One statement of the program leaves everything but standard output
    as it was. *)
Lemma step_frame (pc : point) (w : World) :
  exists pc' s',
    step Stdio.printf (Running pc w) = pc' (set_stdout s' w) /\
    (pc' = Running at_return \/ pc' = Exited 0%Z).
Proof.
  destruct pc; unfold step.
  - unfold Stdio.printf. rewrite hello_format_output.
    destruct (Stdio.stream_put greeting (stdout w)) as [n s'].
    exists (Running at_return), s'. auto.
  - exists (Exited 0%Z), (stdout w). destruct w; auto.
Qed.

(** The object file of any target has one note section, the one the
    target's branch of the conditional names, and it holds the array. *)
Lemma the_note_section (t : Target) :
  note_sections t =
    [if apple_macho t then MachO "__NOTE" "__unisign" else ELF ".note.unisign"] /\
  section_content t
    (if apple_macho t then MachO "__NOTE" "__unisign" else ELF ".note.unisign")
  = magic_comment.
Proof.
  unfold note_sections, section_content, objects, placed_at,
    magic_comment_attributes, locate.
  destruct (apple_macho t) eqn:Ht; cbn -[magic_comment];
    rewrite ?Ht; cbn -[magic_comment]; rewrite ?app_nil_r; auto.
Qed.

(** Two statements of fuel are enough for the machine to exit, and it
    exits where [main] returns. *)
Lemma exec_main (fuel : nat) (w : World) :
  exec Stdio.printf (S (S fuel)) (Running at_printf w) = main Stdio.printf w.
Proof.
  rewrite main_eq. cbn [exec step].
  unfold Stdio.printf. rewrite hello_format_output.
  destruct (Stdio.stream_put greeting (stdout w)) as [n s'].
  cbn [exec step snd]. destruct fuel; reflexivity.
Qed.

(* ===================================================================== *)
(** ** The program's output and exit status *)
(* ===================================================================== *)

(** C1, as the specification states it, fails where standard output takes
    no byte (a closed descriptor, a full disk): the run exits with status
    0 and nothing has been written. *)
Lemma greeting_lost_when_stdout_is_full :
  run (boot (Some 0%nat) [] [] []) = Some {| exit_status := 0; output := [] |} /\
  run (boot (Some 0%nat) [] [] []) <>
    Some {| exit_status := 0; output := greeting |}.
Proof.
  split; [reflexivity|]. rewrite run_eq. cbn. discriminate.
Qed.

(** C1, amended: in every execution whose standard output takes the 14
    bytes, the program writes exactly [Hello, world!] and a newline, and
    exits with status 0. *)
Theorem run_prints_greeting
    (out_room : option nat) (input : list byte)
    (fs : list (string * list byte)) (env : list (string * string)) :
  Stdio.has_room (List.length greeting) out_room = true ->
  run (boot out_room input fs env) =
    Some {| exit_status := 0; output := greeting |}.
Proof.
  intros Hroom. rewrite run_eq. cbn [boot stdout sent room app].
  now rewrite taken_all.
Qed.

Lemma run_prints_greeting_witness :
  run (boot (Some 14%nat) [x41] [("/etc/motd", [x42])] [("HOME", "/root")]) =
    Some {| exit_status := 0; output := greeting |}.
Proof.
  apply run_prints_greeting. reflexivity.
Defined.

(** C5, as stated, fails where the write to standard output ends the
    process by a signal.  With a pipe nobody reads behind standard output
    the process is killed by [SIGPIPE]: it has no exit status, and so not
    the status 0. *)
Lemma broken_pipe_leaves_no_exit_status :
  exists res,
    execute (raises SIGPIPE) (boot (Some 0%nat) [] [] []) = Some res /\
    ending res = killed SIGPIPE /\
    ending res <> exited 0%Z.
Proof.
  eexists. split; [reflexivity|]. split; [reflexivity|]. discriminate.
Qed.

(** C5, amended: [main] returns 0 unconditionally.  With any [printf]
    whatever, so also with one that fails, [main] returns 0 if the call
    returns, and does not return only if the call does not: nothing
    branches on the result.  A process exits with status 0 unless a byte
    is refused and the refusal raises a signal, which then kills it; in
    particular it exits with status 0 where standard output refuses
    bytes with an error. *)
Theorem main_returns_zero_unconditionally :
  (forall (printf : list byte -> M Z) (w : World),
      match main printf w with
      | Some (status, _) => status = 0%Z
      | None => printf (string_literal "Hello, world!\n") w = None
      end) /\
  (forall (r : refusal) (w : World),
      exists res,
        execute r w = Some res /\
        (ending res = exited 0%Z \/
         exists s,
           r = raises s /\ ending res = killed s /\
           Stdio.has_room (List.length greeting) (room (stdout w)) = false)) /\
  (forall w : World,
      Stdio.has_room (List.length greeting) (room (stdout w)) = false ->
      execute fails w =
        Some {| ending := exited 0%Z;
                delivered :=
                  sent (stdout w) ++ taken (room (stdout w)) greeting |}).
Proof.
  split; [exact main_status_any_printf|]. split.
  - intros r w. rewrite execute_eq. eexists. split; [reflexivity|].
    cbn [ending].
    destruct (Stdio.has_room (List.length greeting) (room (stdout w)));
      [now left|].
    destruct r as [|s]; [now left|]. right. exists s. auto.
  - intros w Hfull. rewrite execute_eq, Hfull. reflexivity.
Qed.

Lemma main_returns_zero_unconditionally_witness :
  execute fails (boot (Some 3%nat) [] [] []) =
    Some {| ending := exited 0%Z; delivered := [x48; x65; x6c] |}.
Proof.
  apply (proj2 (proj2 main_returns_zero_unconditionally)
           (boot (Some 3%nat) [] [] [])).
  reflexivity.
Defined.

(** C9, as stated, fails: two executions whose standard outputs differ in
    what they accept write different bytes. *)
Lemma outputs_differ_with_stdout :
  exists o1 o2,
    run (boot None [] [] []) = Some o1 /\
    run (boot (Some 0%nat) [] [] []) = Some o2 /\
    output o1 <> output o2.
Proof.
  do 2 eexists. split; [reflexivity|]. split; [reflexivity|].
  cbn. discriminate.
Qed.

(** C9, amended: the program is deterministic given the condition of
    standard output.  Two processes whose standard outputs accept the
    same number of bytes and refuse further ones in the same way deliver
    the same bytes and end the same way, whatever their input, files and
    environment; two processes whose standard outputs accept the whole
    greeting both deliver it and both exit with status 0; and any two
    processes that exit have the same exit status, 0. *)
Theorem execution_deterministic :
  (forall (r : refusal) (out_room : option nat) (in1 in2 : list byte)
          (fs1 fs2 : list (string * list byte))
          (env1 env2 : list (string * string)),
      execute r (boot out_room in1 fs1 env1)
      = execute r (boot out_room in2 fs2 env2)) /\
  (forall (r : refusal) (w1 w2 : World),
      stdout w1 = stdout w2 -> execute r w1 = execute r w2) /\
  (forall (r1 r2 : refusal) (room1 room2 : option nat) (in1 in2 : list byte)
          (fs1 fs2 : list (string * list byte))
          (env1 env2 : list (string * string)),
      Stdio.has_room (List.length greeting) room1 = true ->
      Stdio.has_room (List.length greeting) room2 = true ->
      execute r1 (boot room1 in1 fs1 env1)
        = Some {| ending := exited 0%Z; delivered := greeting |} /\
      execute r2 (boot room2 in2 fs2 env2)
        = Some {| ending := exited 0%Z; delivered := greeting |}) /\
  (forall (r1 r2 : refusal) (w1 w2 : World) (res1 res2 : Result)
          (status1 status2 : Z),
      execute r1 w1 = Some res1 ->
      execute r2 w2 = Some res2 ->
      ending res1 = exited status1 ->
      ending res2 = exited status2 ->
      status1 = 0%Z /\ status2 = 0%Z).
Proof.
  split; [|split; [|split]].
  - intros. now rewrite !execute_eq.
  - intros r w1 w2 H. now rewrite !execute_eq, H.
  - intros r1 r2 room1 room2 in1 in2 fs1 fs2 env1 env2 H1 H2.
    rewrite !execute_eq. cbn [boot stdout sent room app].
    rewrite H1, H2, !taken_all by assumption. split; reflexivity.
  - intros r1 r2 w1 w2 res1 res2 status1 status2 E1 E2 X1 X2.
    rewrite execute_eq in E1, E2.
    inversion E1 as [R1]. inversion E2 as [R2].
    rewrite <- R1 in X1. rewrite <- R2 in X2. cbn [ending] in X1, X2.
    split.
    + destruct (Stdio.has_room _ (room (stdout w1))), r1;
        inversion X1; reflexivity.
    + destruct (Stdio.has_room _ (room (stdout w2))), r2;
        inversion X2; reflexivity.
Qed.

Lemma execution_deterministic_witness :
  (execute (raises SIGPIPE) (boot None [x41] [] [])
     = Some {| ending := exited 0%Z; delivered := greeting |} /\
   execute fails (boot (Some 20%nat) [] [("a.txt", [x42])] [("LANG", "C")])
     = Some {| ending := exited 0%Z; delivered := greeting |}) /\
  execute (raises SIGXFSZ) (boot (Some 5%nat) [x41] [] [])
  = execute (raises SIGXFSZ)
      (set_stdout (stdout (boot (Some 5%nat) [x41] [] []))
         (boot None [] [("a.txt", [x42])] [("LANG", "C")])).
Proof.
  split.
  - apply (proj1 (proj2 (proj2 execution_deterministic))); reflexivity.
  - apply (proj1 (proj2 execution_deterministic)). reflexivity.
Defined.

(** C10: every execution reaches the return statement and exits.  From
    the first statement the machine exits within two steps, with the
    result of [main]; more fuel changes nothing; and each step lowers the
    number of statements left, so no statement is executed twice. *)
Theorem main_terminates (w : World) :
  (exists status w',
      main Stdio.printf w = Some (status, w') /\
      step Stdio.printf (step Stdio.printf (Running at_printf w))
        = Exited status w') /\
  (forall fuel : nat,
      (2 <= fuel)%nat ->
      exec Stdio.printf fuel (Running at_printf w) = main Stdio.printf w) /\
  (forall (pc : point) (w0 : World),
      (remaining (step Stdio.printf (Running pc w0))
         < remaining (Running pc w0))%nat /\
      step Stdio.printf (Running pc w0) <> Undefined).
Proof.
  split; [|split].
  - rewrite main_eq. do 2 eexists. split; [reflexivity|].
    cbn [step]. unfold Stdio.printf. rewrite hello_format_output.
    destruct (Stdio.stream_put greeting (stdout w)) as [n s']. reflexivity.
  - intros [|[|fuel]] Hfuel; try lia. apply exec_main.
  - intros pc w0.
    destruct (step_frame pc w0) as (pc' & s' & Hstep & Hpc).
    rewrite Hstep.
    destruct pc, Hpc as [-> | ->]; cbn; try (split; [lia|discriminate]);
      exfalso; revert Hstep; unfold step, Stdio.printf;
      rewrite ?hello_format_output;
      destruct (Stdio.stream_put greeting (stdout w0)); discriminate.
Qed.

Lemma main_terminates_witness :
  exec Stdio.printf 5 (Running at_printf (boot (Some 0%nat) [] [] []))
  = main Stdio.printf (boot (Some 0%nat) [] [] []).
Proof.
  apply (proj1 (proj2 (main_terminates (boot (Some 0%nat) [] [] [])))).
  lia.
Defined.

(* ===================================================================== *)
(** ** What the run leaves alone *)
(* ===================================================================== *)

(** C6: the signature is never changed at run time.  The object is
    declared [const]; a process started from the image holds the
    compile-time bytes in [magic_comment] when [main] has returned; and
    no statement of the program, from any state, changes them. *)
Theorem magic_comment_immutable :
  (forall t : Target, forallb o_const (objects t) = true) /\
  (forall (out_room : option nat) (input : list byte)
          (fs : list (string * list byte)) (env : list (string * string)),
      exists status w',
        main Stdio.printf (boot out_room input fs env) = Some (status, w') /\
        g_magic_comment w' = magic_comment) /\
  (forall (pc : point) (w : World),
      match step Stdio.printf (Running pc w) with
      | Running _ w' | Exited _ w' => g_magic_comment w' = g_magic_comment w
      | Undefined => False
      end).
Proof.
  split; [|split].
  - intros t. reflexivity.
  - intros. rewrite main_eq. do 2 eexists. split; reflexivity.
  - intros pc w.
    destruct (step_frame pc w) as (pc' & s' & -> & [-> | ->]); reflexivity.
Qed.

(** C7: the program reads no input and its one effect is the write to
    standard output.  After [main], standard input, the program's
    variable, the files and the environment are as before, and standard
    output has gained a prefix of the greeting and nothing else; and the
    outcome of a run is the same whatever the input, the files and the
    environment hold. *)
Theorem main_only_writes_stdout :
  (forall w : World,
      exists status w',
        main Stdio.printf w = Some (status, w') /\
        stdin w' = stdin w /\
        g_magic_comment w' = g_magic_comment w /\
        files w' = files w /\
        environ w' = environ w /\
        exists k, sent (stdout w') = sent (stdout w) ++ firstn k greeting) /\
  (forall w1 w2 : World, stdout w1 = stdout w2 -> run w1 = run w2).
Proof.
  split.
  - intros w. rewrite main_eq. do 2 eexists. split; [reflexivity|].
    cbn [set_stdout stdin g_magic_comment files environ stdout].
    repeat (split; [reflexivity|]).
    rewrite stream_put_sent. unfold taken.
    destruct (room (stdout w)) as [k|].
    + now exists k.
    + exists (List.length greeting). now rewrite firstn_all.
  - exact run_depends_on_stdout_only.
Qed.

Lemma main_only_writes_stdout_witness :
  run (boot (Some 5%nat) [x41; x42] [("/tmp/x", [x43])] [("PATH", "/bin")]) =
  run (boot (Some 5%nat) [] [] []).
Proof.
  apply (proj2 main_only_writes_stdout). reflexivity.
Defined.

(* ===================================================================== *)
(** ** The embedded signature *)
(* ===================================================================== *)

(** C2: the array holds the bytes of the quoted signature, in order and
    unchanged, closed by the literal's terminating zero byte; read as a
    string it is the quoted signature; and this array is the content of
    the note section of the object file of every target. *)
Theorem magic_comment_verbatim :
  magic_comment = list_byte_of_string spec_signature ++ [x00] /\
  c_str magic_comment = list_byte_of_string spec_signature /\
  string_of_list_byte (c_str magic_comment) = spec_signature /\
  (forall t : Target,
      exists l, note_sections t = [l] /\ section_content t l = magic_comment).
Proof.
  split; [reflexivity|]. split; [reflexivity|]. split; [reflexivity|].
  intros t. destruct (the_note_section t) as [Hsec Hcont]. eauto.
Qed.

(** C8: the array is 93 bytes long, the 92 characters of the literal and
    one zero byte after them, so the section content ends in a zero
    byte, and no zero byte comes earlier. *)
Theorem magic_comment_size :
  sizeof magic_comment = 93%nat /\
  String.length spec_signature = 92%nat /\
  strlen magic_comment = 92%nat /\
  magic_comment = firstn 92 magic_comment ++ [x00] /\
  firstn 92 magic_comment = list_byte_of_string spec_signature /\
  (forall t : Target,
      exists l, note_sections t = [l] /\
                List.length (section_content t l) = 93%nat /\
                last (section_content t l) x01 = x00).
Proof.
  repeat (split; [reflexivity|]).
  intros t. destruct (the_note_section t) as [Hsec Hcont].
  eexists. split; [exact Hsec|]. rewrite Hcont. split; reflexivity.
Qed.

(** C3: on a target that defines both [__APPLE__] and [__MACH__] the
    declaration carries the attribute for segment [__NOTE], section
    [__unisign]; on any other target it carries the one for section
    [.note.unisign]; and on every target it carries exactly one section
    attribute, one of these two and not the other. *)
Theorem section_attribute_by_target (t : Target) :
  (apple_macho t = true ->
     magic_comment_attributes t = [section "__NOTE,__unisign"] /\
     map (locate t) (magic_comment_attributes t)
       = [Some (MachO "__NOTE" "__unisign")]) /\
  (apple_macho t = false ->
     magic_comment_attributes t = [section ".note.unisign"] /\
     map (locate t) (magic_comment_attributes t)
       = [Some (ELF ".note.unisign")]) /\
  List.length (magic_comment_attributes t) = 1%nat /\
  (In (section "__NOTE,__unisign") (magic_comment_attributes t) <->
   ~ In (section ".note.unisign") (magic_comment_attributes t)).
Proof.
  unfold magic_comment_attributes, locate.
  destruct (apple_macho t) eqn:Ht; cbn; rewrite ?Ht; cbn.
  - split; [auto|]. split; [discriminate|]. split; [reflexivity|].
    split.
    + intros _ [H|[]]. discriminate.
    + auto.
  - split; [discriminate|]. split; [auto|]. split; [reflexivity|].
    split.
    + intros [H|[]]. discriminate.
    + intros H. exfalso. apply H. auto.
Qed.

Lemma section_attribute_by_target_witness :
  (magic_comment_attributes macos = [section "__NOTE,__unisign"] /\
   map (locate macos) (magic_comment_attributes macos)
     = [Some (MachO "__NOTE" "__unisign")]) /\
  (magic_comment_attributes linux = [section ".note.unisign"] /\
   map (locate linux) (magic_comment_attributes linux)
     = [Some (ELF ".note.unisign")]).
Proof.
  split.
  - apply (proj1 (section_attribute_by_target macos)). reflexivity.
  - apply (proj1 (proj2 (section_attribute_by_target linux))). reflexivity.
Defined.

(** C4: compiled for a Mach-O target and for an ELF target, the source
    gives each object file its own section name, [__NOTE,__unisign] and
    [.note.unisign], and the two sections hold the same bytes, those of
    the array. *)
Theorem section_content_same_on_both_families (ta te : Target) :
  apple_macho ta = true ->
  apple_macho te = false ->
  note_sections ta = [MachO "__NOTE" "__unisign"] /\
  note_sections te = [ELF ".note.unisign"] /\
  section_content ta (MachO "__NOTE" "__unisign")
    = section_content te (ELF ".note.unisign") /\
  section_content te (ELF ".note.unisign") = magic_comment.
Proof.
  intros Ha He.
  destruct (the_note_section ta) as [Hsa Hca].
  destruct (the_note_section te) as [Hse Hce].
  rewrite Ha in Hsa, Hca. rewrite He in Hse, Hce.
  repeat split; congruence.
Qed.

Lemma section_content_same_on_both_families_witness :
  note_sections macos = [MachO "__NOTE" "__unisign"] /\
  note_sections linux = [ELF ".note.unisign"] /\
  section_content macos (MachO "__NOTE" "__unisign")
    = section_content linux (ELF ".note.unisign") /\
  section_content linux (ELF ".note.unisign") = magic_comment.
Proof.
  apply section_content_same_on_both_families; reflexivity.
Defined.

(* ===================================================================== *)
(** ** Further properties of the translation unit *)
(* ===================================================================== *)

Lemma apple_macho_iff (t : Target) :
  apple_macho t = true <-> In "__APPLE__" t /\ In "__MACH__" t.
Proof.
  unfold apple_macho, defined.
  rewrite andb_true_iff, !existsb_exists. split.
  - intros [(a & Ha & Ea) (m & Hm & Em)].
    apply String.eqb_eq in Ea, Em. subst. auto.
  - intros [Ha Hm]. split.
    + exists "__APPLE__". split; [exact Ha|reflexivity].
    + exists "__MACH__". split; [exact Hm|reflexivity].
Qed.

Lemma location_eqb_eq (l1 l2 : location) :
  location_eqb l1 l2 = true <-> l1 = l2.
Proof.
  destruct l1 as [g1 s1|n1], l2 as [g2 s2|n2]; cbn;
    rewrite ?andb_true_iff, ?String.eqb_eq;
    split; intros H; try discriminate; try congruence.
  - destruct H; congruence.
  - inversion H; auto.
Qed.

(** [printf] of the library model changes standard output and nothing
    else, whatever the format. *)
Lemma printf_frame (fmt : list byte) (w w' : World) (r : Z) :
  Stdio.printf fmt w = Some (r, w') -> exists s', w' = set_stdout s' w.
Proof.
  unfold Stdio.printf.
  destruct (Stdio.format_output (c_str fmt)) as [bs|]; [|discriminate].
  destruct (Stdio.stream_put bs (stdout w)) as [n s'].
  intros H. inversion H. eauto.
Qed.

(** X1: the Mach-O section name needs both macros.  The declaration
    carries [__NOTE,__unisign] exactly on the targets that define
    [__APPLE__] and [__MACH__]; a target that defines only one of them,
    or neither, gets [.note.unisign]. *)
Theorem section_needs_both_macros (t : Target) :
  (magic_comment_attributes t = [section "__NOTE,__unisign"] <->
   In "__APPLE__" t /\ In "__MACH__" t) /\
  (magic_comment_attributes t = [section ".note.unisign"] <->
   ~ (In "__APPLE__" t /\ In "__MACH__" t)).
Proof.
  rewrite <- apple_macho_iff. unfold magic_comment_attributes.
  destruct (apple_macho t); split; split; intros H;
    try reflexivity; try discriminate; try congruence.
Qed.

Lemma section_needs_both_macros_witness :
  magic_comment_attributes ["__APPLE__"; "__x86_64__"]
    = [section ".note.unisign"] /\
  magic_comment_attributes ["__MACH__"; "__APPLE__"]
    = [section "__NOTE,__unisign"].
Proof.
  split.
  - apply (proj2 (section_needs_both_macros ["__APPLE__"; "__x86_64__"])).
    intros [_ [H|[H|[]]]]; discriminate.
  - apply (proj1 (section_needs_both_macros ["__MACH__"; "__APPLE__"])).
    cbn. auto.
Defined.

(** X2: [main] has no effect of its own.  With any [printf] whatever, a
    run of [main] that returns has called [printf] on the greeting's
    array, ends in the world that call left, and returns 0; so every
    property of the world that [printf] preserves, [main] preserves. *)
Theorem main_preserves_what_printf_preserves
    (printf : list byte -> M Z) (P : World -> Prop) :
  (forall fmt w r w', printf fmt w = Some (r, w') -> P w -> P w') ->
  forall (w w' : World) (r : Z),
    main printf w = Some (r, w') ->
    P w ->
    P w' /\ r = 0%Z /\
    exists n, printf (string_literal "Hello, world!\n") w = Some (n, w').
Proof.
  intros Hpres w w' r Hmain HP.
  unfold main, bind, ret in Hmain.
  destruct (printf (string_literal "Hello, world!\n") w) as [[n w1]|] eqn:Hcall;
    [|discriminate].
  inversion Hmain; subst.
  split; [eapply Hpres; eassumption|]. split; [reflexivity|]. eauto.
Qed.

Lemma main_preserves_what_printf_preserves_witness :
  files (set_stdout {| sent := firstn 4 greeting; room := Some 0%nat; error := true |}
           (boot (Some 4%nat) [] [("sig", [x75; x73])] []))
    = [("sig", [x75; x73])] /\
  0%Z = 0%Z /\
  exists n,
    Stdio.printf (string_literal "Hello, world!\n")
      (boot (Some 4%nat) [] [("sig", [x75; x73])] [])
    = Some (n, set_stdout
                 {| sent := firstn 4 greeting; room := Some 0%nat; error := true |}
                 (boot (Some 4%nat) [] [("sig", [x75; x73])] [])).
Proof.
  apply (main_preserves_what_printf_preserves Stdio.printf
           (fun w => files w = [("sig", [x75; x73])])).
  - intros fmt w r w' Hcall Hfiles.
    destruct (printf_frame fmt w w' r Hcall) as [s' ->]. exact Hfiles.
  - reflexivity.
  - reflexivity.
Defined.

(** X3: [magic_comment] is placed in exactly one section.  On any
    target the object is placed at a location if and only if that
    location is the target's own note section; so a Mach-O build does
    not have it under [.note.unisign], nor an ELF build under
    [__NOTE,__unisign]. *)
Theorem magic_comment_placed_nowhere_else
    (t : Target) (l : location) (o : Object) :
  In o (objects t) ->
  o_name o = "magic_comment" ->
  (placed_at t l o = true <->
   l = if apple_macho t
       then MachO "__NOTE" "__unisign" else ELF ".note.unisign") /\
  placed_at t
    (if apple_macho t then ELF ".note.unisign" else MachO "__NOTE" "__unisign")
    o = false.
Proof.
  intros [<-|[]] _.
  unfold placed_at, magic_comment_attributes, locate.
  destruct (apple_macho t) eqn:Ht; cbn -[location_eqb]; rewrite ?Ht;
    cbn -[location_eqb]; rewrite orb_false_r;
    (split; [apply location_eqb_eq | reflexivity]).
Qed.

Lemma magic_comment_placed_nowhere_else_witness :
  (placed_at linux (MachO "__NOTE" "__unisign")
     {| o_name := "magic_comment";
        o_attributes := magic_comment_attributes linux;
        o_const := true;
        o_bytes := magic_comment |} = true <->
   MachO "__NOTE" "__unisign" = ELF ".note.unisign") /\
  placed_at linux (MachO "__NOTE" "__unisign")
     {| o_name := "magic_comment";
        o_attributes := magic_comment_attributes linux;
        o_const := true;
        o_bytes := magic_comment |} = false.
Proof.
  apply (magic_comment_placed_nowhere_else linux (MachO "__NOTE" "__unisign")).
  - left. reflexivity.
  - reflexivity.
Defined.

End Hello.
